(** * enaml/widgets/container.py: Container, VContainer, HContainer

    A shallow embedding of the container classes of
    [enaml/widgets/container.py] and the properties of their constraint
    collection, child events, observers and member declarations.

    Conventions of the embedding.
    - Python list objects that the code copies and appends to live in a
      store of lists ([lists]), addressed by location, so that [l[:]]
      allocates and [l.append(x)] updates in place.
    - Calls into inherited methods whose bodies live in other modules
      ([request_relayout], the superclass event handlers) are recorded, in
      order, in a call log ([calls]).
    - Methods run in a small state and exception monad over that world.
    - Symbolic constraint variables and the expressions built from them
      with the overloaded [+], [-] and [/] are an expression tree; its
      value under a valuation is taken over the rationals. *)

From Stdlib Require Import QArith Qcanon Field.
From stdpp Require Import base numbers list strings gmap.

Open Scope string_scope.
Open Scope list_scope.

(** ** Classes and [isinstance] *)

(** A class is known by its name and its method resolution order, the
    names of the class itself and of all its bases. *)
Record pyclass := PyClass { cls_name : string; cls_mro : list string }.

(** The bases of [ConstraintsWidget] are declared in another module; they
    are the parameter [above] of the classes below. *)
Definition ConstraintsWidget_class (above : list string) : pyclass :=
  PyClass "ConstraintsWidget" ("ConstraintsWidget" :: above).

Definition Container_class (above : list string) : pyclass :=
  PyClass "Container" ("Container" :: cls_mro (ConstraintsWidget_class above)).

Definition VContainer_class (above : list string) : pyclass :=
  PyClass "VContainer" ("VContainer" :: cls_mro (Container_class above)).

Definition HContainer_class (above : list string) : pyclass :=
  PyClass "HContainer" ("HContainer" :: cls_mro (Container_class above)).

(** An object identity. *)
Definition oid := positive.

(** A child of a container: some object of some class. *)
Record element := Element { elem_id : oid; elem_class : pyclass }.

(** [isinstance(c, K)]: [K] is in the method resolution order of the class
    of [c]. *)
Definition isinstance (c : element) (K : string) : bool :=
  bool_decide (K ∈ cls_mro (elem_class c)).

#[global] Instance pyclass_eq_dec : EqDecision pyclass.
Proof. solve_decision. Defined.

#[global] Instance element_eq_dec : EqDecision element.
Proof. solve_decision. Defined.

(** ** Symbolic anchors and expressions *)

(** A [ConstraintMember] of an object is a symbolic variable named after
    the member and owned by the object. *)
Record variable := ConstraintVariable { var_owner : oid; var_name : string }.

#[global] Instance variable_eq_dec : EqDecision variable.
Proof. solve_decision. Defined.

(** Expressions over the variables: what [a - b], [a + b] and [a / 2.0]
    build. *)
Inductive expr :=
| EVar (v : variable)
| EConst (q : Qc)
| EAdd (a b : expr)
| ESub (a b : expr)
| EDiv (a : expr) (q : Qc).

#[global] Instance expr_eq_dec : EqDecision expr.
Proof. solve_decision. Defined.

(** The value of an expression once the solver has assigned the
    variables. *)
Fixpoint eval (rho : variable -> Qc) (e : expr) : Qc :=
  match e with
  | EVar v => rho v
  | EConst q => q
  | EAdd a b => (eval rho a + eval rho b)%Qc
  | ESub a b => (eval rho a - eval rho b)%Qc
  | EDiv a q => (eval rho a / q)%Qc
  end.

Definition two : Qc := Q2Qc 2.

(** ** Constraint list entries *)

(** [Spacer] comes from [enaml.layout.layout_helpers]; only its identity
    matters here. *)
Record Spacer := Spacer_ { spacer_id : oid }.

#[global] Instance Spacer_eq_dec : EqDecision Spacer.
Proof. solve_decision. Defined.

(** An argument of [vbox] / [hbox]: a widget or a spacer. *)
Inductive box_item :=
| BWidget (e : element)
| BSpacer (s : Spacer).

#[global] Instance box_item_eq_dec : EqDecision box_item.
Proof. solve_decision. Defined.

Inductive relop := RelEq | RelLe | RelGe.

#[global] Instance relop_eq_dec : EqDecision relop.
Proof. solve_decision. Defined.

(** An entry of a constraint list: a linear constraint between two
    expressions, or the helper object returned by a call of [vbox] or
    [hbox], kept as the call itself (positional arguments and the
    [spacing] keyword when it is passed), since the body of the helpers is
    in [enaml.layout.layout_helpers]. *)
Inductive item :=
| Linear (lhs : expr) (op : relop) (rhs : expr)
| vbox (items : list box_item) (spacing : option Z)
| hbox (items : list box_item) (spacing : option Z).

#[global] Instance item_eq_dec : EqDecision item.
Proof. solve_decision. Defined.

Definition is_linear (i : item) : bool :=
  match i with Linear _ _ _ => true | _ => false end.

(** ** The world: list store and call log *)

Definition loc := positive.

(** The [change] dictionary an observer receives. *)
Inductive attr_value :=
| VBool (b : bool)
| VBox (box : Z * Z * Z * Z).

#[global] Instance attr_value_eq_dec : EqDecision attr_value.
Proof. solve_decision. Defined.

Record change := Change {
  change_type : string;
  change_object : oid;
  change_name : string;
  change_oldvalue : attr_value;
  change_value : attr_value
}.

(** Entries of the call log: the calls of inherited methods whose bodies
    are in other modules, and the completion of a solve, which the layout
    engine reports. *)
Inductive call :=
| super_child_added (self : oid) (child : element)
| super_child_removed (self : oid) (child : element)
| request_relayout (self : oid)
| super_layout_invalidated (self : oid) (c : change)
| layout_solved (self : oid).

#[global] Instance change_eq_dec : EqDecision change.
Proof. solve_decision. Defined.

#[global] Instance call_eq_dec : EqDecision call.
Proof. solve_decision. Defined.

Record world := World {
  lists : gmap loc (list item);
  calls : list call
}.

(** ** The monad of methods *)

Inductive exn :=
| ValidationError (member : string)
| DanglingReference (l : loc).
(* [ValidationError]: the framework refuses the value assigned to a member.
   [DanglingReference]: a location that holds no list; no running program
   has one, the store only lacks a location before it is allocated. *)

Inductive outcome (A : Type) :=
| Returned (a : A) (w : world)
| Raised (e : exn) (w : world).
Arguments Returned {A} a w.
Arguments Raised {A} e w.

Definition M (A : Type) : Type := world -> outcome A.

#[global] Instance M_ret : MRet M := fun A a w => Returned a w.

#[global] Instance M_bind : MBind M := fun A B k m w =>
  match m w with
  | Returned a w' => k a w'
  | Raised e w' => Raised e w'
  end.

Definition raise {A} (e : exn) : M A := fun w => Raised e w.

(** [l[:]]: a new list object with the entries of [l]. *)
Definition list_copy (l : loc) : M loc :=
  fun w => match lists w !! l with
           | Some xs =>
               let l' := fresh (dom (lists w)) in
               Returned l' (World (<[l' := xs]> (lists w)) (calls w))
           | None => Raised (DanglingReference l) w
           end.

(** [not l]: whether the list is empty. *)
Definition list_is_empty (l : loc) : M bool :=
  fun w => match lists w !! l with
           | Some xs => Returned (bool_decide (xs = [])) w
           | None => Raised (DanglingReference l) w
           end.

(** [l.append(x)]: in place. *)
Definition list_append (l : loc) (x : item) : M unit :=
  fun w => match lists w !! l with
           | Some xs => Returned tt (World (<[l := xs ++ [x]]> (lists w)) (calls w))
           | None => Raised (DanglingReference l) w
           end.

(** A new list object. *)
Definition list_new (xs : list item) : M loc :=
  fun w => let l' := fresh (dom (lists w)) in
           Returned l' (World (<[l' := xs]> (lists w)) (calls w)).

(** Record a call that leaves the module. *)
Definition invoke (c : call) : M unit :=
  fun w => Returned tt (World (lists w) (calls w ++ [c])).

(** ** Member declarations from the declarative framework *)

(** [Range(low=..., high=..., value=...)]: an integer member with optional
    bounds and a default. *)
Record Range := Range_ {
  low : option Z;
  high : option Z;
  value : Z
}.

(** Validation of an assignment to a [Range] member: a value below [low]
    or above [high] is refused with an exception, any other value is
    stored as it is. *)
Definition Range_validate (r : Range) (name : string) (v : Z) : M Z :=
  match low r with
  | Some lo => if (v <? lo)%Z then raise (ValidationError name) else
      match high r with
      | Some hi => if (hi <? v)%Z then raise (ValidationError name) else mret v
      | None => mret v
      end
  | None =>
      match high r with
      | Some hi => if (hi <? v)%Z then raise (ValidationError name) else mret v
      | None => mret v
      end
  end.

(** ** class Container(ConstraintsWidget) *)

Module Container.

(** The members of a [Container] instance. [children] and [constraints]
    are inherited; [constraints] holds a reference to a list object. *)
Record t := Make {
  self_id : oid;
  share_layout : bool;
  padding : Z * Z * Z * Z;
  hug_width : string;
  hug_height : string;
  children : list element;
  constraints : loc
}.

(** [share_layout = d_(Bool(False))],
    [padding = d_(Coerced(Box, (10, 10, 10, 10)))],
    [hug_width = set_default('ignore')],
    [hug_height = set_default('ignore')]; no children and an empty list
    of constraints of its own. *)
Definition new (id : oid) : M t :=
  cns ← list_new [];
  mret {| self_id := id;
          share_layout := false;
          padding := (10, 10, 10, 10)%Z;
          hug_width := "ignore";
          hug_height := "ignore";
          children := [];
          constraints := cns |}.

(** The four [ConstraintMember]s. *)
Definition contents_left (self : t) : expr :=
  EVar (ConstraintVariable (self_id self) "contents_left").
Definition contents_right (self : t) : expr :=
  EVar (ConstraintVariable (self_id self) "contents_right").
Definition contents_top (self : t) : expr :=
  EVar (ConstraintVariable (self_id self) "contents_top").
Definition contents_bottom (self : t) : expr :=
  EVar (ConstraintVariable (self_id self) "contents_bottom").

(** [_default_contents_width] and its three siblings. *)
Definition contents_width (self : t) : expr :=
  ESub (contents_right self) (contents_left self).

Definition contents_height (self : t) : expr :=
  ESub (contents_bottom self) (contents_top self).

Definition contents_v_center (self : t) : expr :=
  EAdd (contents_top self) (EDiv (contents_height self) two).

Definition contents_h_center (self : t) : expr :=
  EAdd (contents_left self) (EDiv (contents_width self) two).

(** [widgets]: [[c for c in self.children if isinstance(c, ConstraintsWidget)]] *)
Definition widgets (self : t) : list element :=
  List.filter (fun c => isinstance c "ConstraintsWidget") (children self).

(** [child_added] *)
Definition child_added (self : t) (child : element) : M unit :=
  invoke (super_child_added (self_id self) child);;
  if isinstance child "ConstraintsWidget"
  then invoke (request_relayout (self_id self))
  else mret tt.

(** [child_removed] *)
Definition child_removed (self : t) (child : element) : M unit :=
  invoke (super_child_removed (self_id self) child);;
  if isinstance child "ConstraintsWidget"
  then invoke (request_relayout (self_id self))
  else mret tt.

(** [_layout_invalidated]: the superclass handler is sufficient. *)
Definition _layout_invalidated (self : t) (c : change) : M unit :=
  invoke (super_layout_invalidated (self_id self) c).

(** [@observe(('share_layout', 'padding'))] *)
Definition observed : list string := ["share_layout"; "padding"].

(** What the framework does when a member has been assigned: an
    assignment that changes the value of an observed member calls the
    observer with an update change. *)
Definition notify (self : t) (name : string) (old new : attr_value) : M unit :=
  if bool_decide (old = new) then mret tt
  else if bool_decide (name ∈ observed)
       then _layout_invalidated self
              (Change "update" (self_id self) name old new)
       else mret tt.

(** [self.padding = box] *)
Definition set_padding (self : t) (box : Z * Z * Z * Z) : M t :=
  let self' := {| self_id := self_id self;
                  share_layout := share_layout self;
                  padding := box;
                  hug_width := hug_width self;
                  hug_height := hug_height self;
                  children := children self;
                  constraints := constraints self |} in
  notify self' "padding" (VBox (padding self)) (VBox box);;
  mret self'.

(** [self.share_layout = flag] *)
Definition set_share_layout (self : t) (flag : bool) : M t :=
  let self' := {| self_id := self_id self;
                  share_layout := flag;
                  padding := padding self;
                  hug_width := hug_width self;
                  hug_height := hug_height self;
                  children := children self;
                  constraints := constraints self |} in
  notify self' "share_layout" (VBool (share_layout self)) (VBool flag);;
  mret self'.

(** [layout_constraints] *)
Definition layout_constraints (self : t) : M loc :=
  cns ← list_copy (constraints self);
  no_cns ← list_is_empty cns;
  (if no_cns : bool
   then list_append cns (vbox (BWidget <$> widgets self) None)
   else mret tt);;
  mret cns.

End Container.

(** ** class VContainer(Container) *)

Module VContainer.

Record t := Make {
  base : Container.t;
  spacing : Z;
  top_spacer : option Spacer;
  bottom_spacer : option Spacer
}.

(** [spacing = d_(Range(low=0, value=10))] *)
Definition spacing_member : Range := Range_ (Some 0%Z) None 10%Z.

Definition new (id : oid) : M t :=
  b ← Container.new id;
  mret {| base := b;
          spacing := value spacing_member;
          top_spacer := None;
          bottom_spacer := None |}.

(** [self.spacing = v] *)
Definition set_spacing (self : t) (v : Z) : M t :=
  v' ← Range_validate spacing_member "spacing" v;
  mret {| base := base self;
          spacing := v';
          top_spacer := top_spacer self;
          bottom_spacer := bottom_spacer self |}.

(** The [items] of [layout_constraints]. *)
Definition items (self : t) : list box_item :=
  let items : list box_item := [] in
  let items := match top_spacer self with
               | Some s => items ++ [BSpacer s]
               | None => items
               end in
  let items := items ++ (BWidget <$> Container.widgets (base self)) in
  let items := match bottom_spacer self with
               | Some s => items ++ [BSpacer s]
               | None => items
               end in
  items.

(** [layout_constraints] *)
Definition layout_constraints (self : t) : M loc :=
  let items := items self in
  cns ← list_copy (Container.constraints (base self));
  list_append cns (vbox items (Some (spacing self)));;
  mret cns.

End VContainer.

(** ** class HContainer(Container) *)

Module HContainer.

Record t := Make {
  base : Container.t;
  spacing : Z;
  left_spacer : option Spacer;
  right_spacer : option Spacer
}.

(** [spacing = d_(Range(low=0, value=10))] *)
Definition spacing_member : Range := Range_ (Some 0%Z) None 10%Z.

Definition new (id : oid) : M t :=
  b ← Container.new id;
  mret {| base := b;
          spacing := value spacing_member;
          left_spacer := None;
          right_spacer := None |}.

(** [self.spacing = v] *)
Definition set_spacing (self : t) (v : Z) : M t :=
  v' ← Range_validate spacing_member "spacing" v;
  mret {| base := base self;
          spacing := v';
          left_spacer := left_spacer self;
          right_spacer := right_spacer self |}.

(** The [items] of [layout_constraints]. *)
Definition items (self : t) : list box_item :=
  let items : list box_item := [] in
  let items := match left_spacer self with
               | Some s => items ++ [BSpacer s]
               | None => items
               end in
  let items := items ++ (BWidget <$> Container.widgets (base self)) in
  let items := match right_spacer self with
               | Some s => items ++ [BSpacer s]
               | None => items
               end in
  items.

(** [layout_constraints] *)
Definition layout_constraints (self : t) : M loc :=
  let items := items self in
  cns ← list_copy (Container.constraints (base self));
  list_append cns (hbox items (Some (spacing self)));;
  mret cns.

End HContainer.

(** ** Dynamic dispatch *)

(** An instance of one of the three classes; [self.layout_constraints()]
    runs the method of the instance's own class. *)
Inductive instance :=
| IContainer (c : Container.t)
| IVContainer (c : VContainer.t)
| IHContainer (c : HContainer.t).

(** The inherited [Container] members of an instance. *)
Definition as_Container (i : instance) : Container.t :=
  match i with
  | IContainer c => c
  | IVContainer c => VContainer.base c
  | IHContainer c => HContainer.base c
  end.

Definition layout_constraints (i : instance) : M loc :=
  match i with
  | IContainer c => Container.layout_constraints c
  | IVContainer c => VContainer.layout_constraints c
  | IHContainer c => HContainer.layout_constraints c
  end.

(** ** Observation of runs *)

(** The calls a method makes when run in world [w]. *)
Definition calls_made {A} (m : M A) (w : world) : list call :=
  match m w with
  | Returned _ w' => drop (length (calls w)) (calls w')
  | Raised _ w' => drop (length (calls w)) (calls w')
  end.

(** The entries of the list a method returns, read in the world the
    method leaves. *)
Definition returned_list (m : M loc) (w : world) : option (list item) :=
  match m w with
  | Returned l w' => lists w' !! l
  | Raised _ _ => None
  end.

(** The entries [Container.layout_constraints] leaves in its copy of the
    explicit list [cs]. *)
Definition Container_result (self : Container.t) (cs : list item) : list item :=
  if bool_decide (cs = [])
  then cs ++ [vbox (BWidget <$> Container.widgets self) None]
  else cs.

(** The entries the method of the instance's class leaves in its copy. *)
Definition instance_result (i : instance) (cs : list item) : list item :=
  match i with
  | IContainer c => Container_result c cs
  | IVContainer c => cs ++ [vbox (VContainer.items c) (Some (VContainer.spacing c))]
  | IHContainer c => cs ++ [hbox (HContainer.items c) (Some (HContainer.spacing c))]
  end.

(** ** The relayout protocol *)

Inductive status := CLEAN | DIRTY.

(** Modelled from the spec: [request_relayout] and the superclass
    [_layout_invalidated] handler are inherited from [ConstraintsWidget],
    which is in another module. Section 4.5 of the specification gives the
    state machine [CLEAN -> DIRTY -> (solve) -> CLEAN]: a relayout request
    marks the container dirty, the invalidation handler requests a
    relayout, and a completed solve marks it clean. *)
Definition status_step (id : oid) (st : status) (c : call) : status :=
  match c with
  | request_relayout i => if bool_decide (i = id) then DIRTY else st
  | super_layout_invalidated i _ => if bool_decide (i = id) then DIRTY else st
  | layout_solved i => if bool_decide (i = id) then CLEAN else st
  | super_child_added _ _ => st
  | super_child_removed _ _ => st
  end.

Definition layout_status (id : oid) (cs : list call) : status :=
  foldl (status_step id) CLEAN cs.

(** ** Reachable stacking containers *)

(** The [VContainer] objects a program can hold: a new one, or one whose
    [spacing] (or an inherited observed member) has been assigned. *)
Inductive V_reachable : VContainer.t -> Prop :=
| V_reach_new id w self w' :
    VContainer.new id w = Returned self w' -> V_reachable self
| V_reach_set_spacing self v w self' w' :
    V_reachable self ->
    VContainer.set_spacing self v w = Returned self' w' ->
    V_reachable self'
| V_reach_set_padding self box w b' w' :
    V_reachable self ->
    Container.set_padding (VContainer.base self) box w = Returned b' w' ->
    V_reachable (VContainer.Make b' (VContainer.spacing self)
                   (VContainer.top_spacer self) (VContainer.bottom_spacer self))
| V_reach_set_spacers self top bottom :
    V_reachable self ->
    V_reachable (VContainer.Make (VContainer.base self) (VContainer.spacing self)
                   top bottom).

Inductive H_reachable : HContainer.t -> Prop :=
| H_reach_new id w self w' :
    HContainer.new id w = Returned self w' -> H_reachable self
| H_reach_set_spacing self v w self' w' :
    H_reachable self ->
    HContainer.set_spacing self v w = Returned self' w' ->
    H_reachable self'
| H_reach_set_padding self box w b' w' :
    H_reachable self ->
    Container.set_padding (HContainer.base self) box w = Returned b' w' ->
    H_reachable (HContainer.Make b' (HContainer.spacing self)
                   (HContainer.left_spacer self) (HContainer.right_spacer self))
| H_reach_set_spacers self l r :
    H_reachable self ->
    H_reachable (HContainer.Make (HContainer.base self) (HContainer.spacing self)
                   l r).

(** ** The specification's reading of the returned list *)

(** The names of the eight content anchors of section 4.1. *)
Definition content_anchor_names : list string :=
  ["contents_left"; "contents_right"; "contents_top"; "contents_bottom";
   "contents_width"; "contents_height"; "contents_v_center";
   "contents_h_center"].

(** A definitional anchor constraint of container [id]: an equality that
    defines one of its content anchors. *)
Definition is_definitional (id : oid) (i : item) : bool :=
  match i with
  | Linear (EVar v) RelEq _ =>
      bool_decide (var_owner v = id) && bool_decide (var_name v ∈ content_anchor_names)
  | _ => false
  end.

(** A primary-axis chain constraint of a vertical chain: the top of one
    element is the bottom of another plus a spacing. *)
Definition is_chain (i : item) : bool :=
  match i with
  | Linear (EVar b) RelEq (EAdd (EVar a) (EConst _)) =>
      bool_decide (var_name b = "top") && bool_decide (var_name a = "bottom")
  | _ => false
  end.

Definition count (p : item -> bool) (l : list item) : nat :=
  length (List.filter p l).

(** The count of section 8: with no explicit constraints and [N]
    participating children the returned list holds [N - 1] chain
    constraints and the eight definitional constraints. *)
Definition counts_as_specified (self : Container.t) (w : world) : Prop :=
  lists w !! Container.constraints self = Some [] ->
  exists res,
    returned_list (Container.layout_constraints self) w = Some res /\
    count is_chain res = length (Container.widgets self) - 1 /\
    count (is_definitional (Container.self_id self)) res = 8.

(** The contract of the base class read on a stacking container: a
    non-empty explicit list is returned as it is. *)
Definition explicit_only (i : instance) (w : world) : Prop :=
  forall cs,
    lists w !! Container.constraints (as_Container i) = Some cs ->
    cs <> [] ->
    returned_list (layout_constraints i) w = Some cs.

(** ** Sample objects *)

Definition world0 : world := World ∅ [].

Definition label_class : pyclass :=
  PyClass "Label" ("Label" :: cls_mro (ConstraintsWidget_class ["Widget"; "Object"])).

Definition timer_class : pyclass := PyClass "Timer" ["Timer"; "Object"].

Definition label1 : element := Element 11%positive label_class.
Definition label2 : element := Element 12%positive label_class.
Definition timer1 : element := Element 13%positive timer_class.
Definition inner1 : element := Element 14%positive (Container_class ["Widget"; "Object"]).

(** A constraint a user may write: [label1.top == label2.top]. *)
Definition cn1 : item :=
  Linear (EVar (ConstraintVariable 11%positive "top")) RelEq (EVar (ConstraintVariable 12%positive "top")).

(** A container with three children and one explicit constraint, and the
    world that holds its list. *)
Definition sample_world : world := World {[ 1%positive := [cn1] ]} [].

Definition sample_container : Container.t :=
  Container.Make 1%positive false (10, 10, 10, 10)%Z "ignore" "ignore"
    [label1; timer1; label2] 1%positive.

(** The same members with no explicit constraint. *)
Definition plain_world : world := World {[ 1%positive := [] ]} [].

Definition sample_vcontainer : VContainer.t :=
  VContainer.Make sample_container 10 None None.

Definition sample_hcontainer : HContainer.t :=
  HContainer.Make sample_container 10 None None.

(** A container with no children. *)
Definition empty_container : Container.t :=
  Container.Make 1%positive false (10, 10, 10, 10)%Z "ignore" "ignore" [] 1%positive.

(** A new [VContainer], and the same object with its spacing set to 3. *)
Definition new_vcontainer : VContainer.t :=
  VContainer.Make empty_container 10 None None.

Definition spaced_vcontainer : VContainer.t :=
  VContainer.Make empty_container 3 None None.

(** ** Further observations of the classes *)

(** The same container after the framework has changed its list of
    children (a child was parented to it or unparented from it). *)
Definition with_children (self : Container.t) (cs : list element) : Container.t :=
  Container.Make (Container.self_id self) (Container.share_layout self)
    (Container.padding self) (Container.hug_width self)
    (Container.hug_height self) cs (Container.constraints self).



(** The widget behind an argument of a box helper, if it is one. *)
Definition item_widget (b : box_item) : option element :=
  match b with
  | BWidget e => Some e
  | BSpacer _ => None
  end.

(** The child events the framework delivers to a container, and their
    delivery one after the other. *)
Inductive child_event :=
| Added (child : element)
| Removed (child : element).

Definition event_child (ev : child_event) : element :=
  match ev with Added c => c | Removed c => c end.

Definition deliver (self : Container.t) (ev : child_event) : M unit :=
  match ev with
  | Added c => Container.child_added self c
  | Removed c => Container.child_removed self c
  end.

Fixpoint deliver_all (self : Container.t) (evs : list child_event) : M unit :=
  match evs with
  | [] => mret tt
  | ev :: evs' => deliver self ev;; deliver_all self evs'
  end.

(** The relayout requests of container [id] in a list of calls. *)
Definition relayout_requests (id : oid) (cs : list call) : nat :=
  length (List.filter (fun c => bool_decide (c = request_relayout id)) cs).



(** A sample container holding a nested stacking container. *)
Definition inner_v : element :=
  Element 15%positive (VContainer_class ["Widget"; "Object"]).

Definition nested_container : Container.t :=
  with_children sample_container [label1; inner_v; timer1].

(** Stacking containers with both spacers set, and a new [HContainer]. *)
Definition spacer_a : Spacer := Spacer_ 21%positive.
Definition spacer_b : Spacer := Spacer_ 22%positive.

Definition spacer_vcontainer : VContainer.t :=
  VContainer.Make sample_container 10 (Some spacer_a) (Some spacer_b).

Definition spacer_hcontainer : HContainer.t :=
  HContainer.Make sample_container 10 (Some spacer_a) (Some spacer_b).


(** * Properties *)

Ltac run_bind := unfold mbind, M_bind, mret, M_ret; simpl.

(** ** Runs of the list primitives *)

Lemma fresh_loc_unused (w : world) :
  lists w !! fresh (dom (lists w)) = None.
Proof. apply not_elem_of_dom, is_fresh. Qed.

Lemma fresh_loc_differs (w : world) (l : loc) (xs : list item) :
  lists w !! l = Some xs -> fresh (dom (lists w)) <> l.
Proof.
  intros Hl Heq. pose proof (fresh_loc_unused w) as Hn.
  rewrite Heq in Hn. congruence.
Qed.

Lemma list_copy_run (w : world) (l : loc) (xs : list item) :
  lists w !! l = Some xs ->
  list_copy l w =
    Returned (fresh (dom (lists w)))
      (World (<[fresh (dom (lists w)) := xs]> (lists w)) (calls w)).
Proof. intros Hl. unfold list_copy. by rewrite Hl. Qed.

Lemma Container_layout_constraints_run (self : Container.t) (w : world) (cs : list item) :
  lists w !! Container.constraints self = Some cs ->
  Container.layout_constraints self w =
    Returned (fresh (dom (lists w)))
      (World (<[fresh (dom (lists w)) := Container_result self cs]> (lists w))
             (calls w)).
Proof.
  intros Hl. unfold Container.layout_constraints. run_bind.
  rewrite (list_copy_run _ _ _ Hl).
  unfold list_is_empty, Container_result. simpl. rewrite lookup_insert_eq.
  case_bool_decide as Hcs.
  - unfold list_append. simpl. rewrite lookup_insert_eq.
    by rewrite insert_insert_eq.
  - done.
Qed.

Lemma VContainer_layout_constraints_run (self : VContainer.t) (w : world) (cs : list item) :
  lists w !! Container.constraints (VContainer.base self) = Some cs ->
  VContainer.layout_constraints self w =
    Returned (fresh (dom (lists w)))
      (World (<[fresh (dom (lists w)) :=
                  cs ++ [vbox (VContainer.items self) (Some (VContainer.spacing self))]]>
                (lists w))
             (calls w)).
Proof.
  intros Hl. unfold VContainer.layout_constraints. run_bind.
  rewrite (list_copy_run _ _ _ Hl).
  unfold list_append. simpl. rewrite lookup_insert_eq.
  by rewrite insert_insert_eq.
Qed.

Lemma HContainer_layout_constraints_run (self : HContainer.t) (w : world) (cs : list item) :
  lists w !! Container.constraints (HContainer.base self) = Some cs ->
  HContainer.layout_constraints self w =
    Returned (fresh (dom (lists w)))
      (World (<[fresh (dom (lists w)) :=
                  cs ++ [hbox (HContainer.items self) (Some (HContainer.spacing self))]]>
                (lists w))
             (calls w)).
Proof.
  intros Hl. unfold HContainer.layout_constraints. run_bind.
  rewrite (list_copy_run _ _ _ Hl).
  unfold list_append. simpl. rewrite lookup_insert_eq.
  by rewrite insert_insert_eq.
Qed.

Lemma layout_constraints_run (i : instance) (w : world) (cs : list item) :
  lists w !! Container.constraints (as_Container i) = Some cs ->
  layout_constraints i w =
    Returned (fresh (dom (lists w)))
      (World (<[fresh (dom (lists w)) := instance_result i cs]> (lists w))
             (calls w)).
Proof.
  destruct i as [c|c|c]; simpl; intros Hl.
  - by apply Container_layout_constraints_run.
  - by apply VContainer_layout_constraints_run.
  - by apply HContainer_layout_constraints_run.
Qed.

(** ** Constraint collection of the base class *)

(** C1: [Container.layout_constraints] returns a list holding exactly the
    explicit constraints when the container has any, and otherwise exactly
    the default, the one [vbox] helper over [widgets()]; the two are never
    mixed. *)
Theorem Container_layout_constraints_explicit_or_default
    (self : Container.t) (w : world) (cs : list item) :
  lists w !! Container.constraints self = Some cs ->
  exists l w',
    Container.layout_constraints self w = Returned l w' /\
    (cs <> [] -> lists w' !! l = Some cs) /\
    (cs = [] ->
     lists w' !! l = Some [vbox (BWidget <$> Container.widgets self) None]).
Proof.
  intros Hl. eexists _, _. split.
  - by apply Container_layout_constraints_run.
  - simpl. rewrite lookup_insert_eq. unfold Container_result.
    split; intros Hcs.
    + by rewrite bool_decide_eq_false_2.
    + subst cs. by rewrite bool_decide_eq_true_2.
Qed.

Lemma Container_layout_constraints_explicit_or_default_witness :
  lists sample_world !! Container.constraints sample_container = Some [cn1] /\
  exists l w',
    Container.layout_constraints sample_container sample_world = Returned l w' /\
    ([cn1] <> [] -> lists w' !! l = Some [cn1]) /\
    ([cn1] = [] ->
     lists w' !! l =
       Some [vbox (BWidget <$> Container.widgets sample_container) None]).
Proof.
  split; [reflexivity |].
  apply (Container_layout_constraints_explicit_or_default
           sample_container sample_world [cn1]).
  reflexivity.
Defined.

(** ** Constraint collection of the stacking containers *)

(** C2, as the specification words it, fails: a [VContainer] and an
    [HContainer] with the explicit constraint [cn1] return that constraint
    followed by the box helper. *)
Lemma stacking_explicit_only_fails :
  ~ explicit_only (IVContainer sample_vcontainer) sample_world /\
  ~ explicit_only (IHContainer sample_hcontainer) sample_world.
Proof.
  split; intros H; specialize (H [cn1] eq_refl);
    vm_compute in H; assert (Hne : [cn1] <> []) by discriminate;
    specialize (H Hne); discriminate H.
Qed.

(** C2, amended: [VContainer.layout_constraints] and
    [HContainer.layout_constraints] return a copy of the explicit
    constraints followed by one box helper ([vbox], respectively [hbox])
    over the optional leading spacer, [widgets()] and the optional
    trailing spacer, called with the container's [spacing], whether or not
    there are explicit constraints. *)
Theorem stacking_layout_constraints_append (w : world) (cs : list item) :
  (forall self : VContainer.t,
     lists w !! Container.constraints (VContainer.base self) = Some cs ->
     VContainer.items self =
       option_list (BSpacer <$> VContainer.top_spacer self) ++
       (BWidget <$> Container.widgets (VContainer.base self)) ++
       option_list (BSpacer <$> VContainer.bottom_spacer self) /\
     exists l w',
       VContainer.layout_constraints self w = Returned l w' /\
       lists w' !! l =
         Some (cs ++ [vbox (VContainer.items self)
                        (Some (VContainer.spacing self))])) /\
  (forall self : HContainer.t,
     lists w !! Container.constraints (HContainer.base self) = Some cs ->
     HContainer.items self =
       option_list (BSpacer <$> HContainer.left_spacer self) ++
       (BWidget <$> Container.widgets (HContainer.base self)) ++
       option_list (BSpacer <$> HContainer.right_spacer self) /\
     exists l w',
       HContainer.layout_constraints self w = Returned l w' /\
       lists w' !! l =
         Some (cs ++ [hbox (HContainer.items self)
                        (Some (HContainer.spacing self))])).
Proof.
  split; intros self Hl; split.
  - unfold VContainer.items.
    destruct (VContainer.top_spacer self), (VContainer.bottom_spacer self);
      simpl; by rewrite ?app_nil_r, <- ?app_assoc.
  - eexists _, _. split.
    + by apply VContainer_layout_constraints_run.
    + simpl. by rewrite lookup_insert_eq.
  - unfold HContainer.items.
    destruct (HContainer.left_spacer self), (HContainer.right_spacer self);
      simpl; by rewrite ?app_nil_r, <- ?app_assoc.
  - eexists _, _. split.
    + by apply HContainer_layout_constraints_run.
    + simpl. by rewrite lookup_insert_eq.
Qed.

Lemma stacking_layout_constraints_append_witness :
  lists sample_world !! Container.constraints (VContainer.base sample_vcontainer)
    = Some [cn1] /\
  exists l w',
    VContainer.layout_constraints sample_vcontainer sample_world = Returned l w' /\
    lists w' !! l =
      Some ([cn1] ++ [vbox (VContainer.items sample_vcontainer)
                        (Some (VContainer.spacing sample_vcontainer))]).
Proof.
  split; [reflexivity |].
  apply (proj1 (stacking_layout_constraints_append sample_world [cn1])
           sample_vcontainer).
  reflexivity.
Defined.

(** ** The size of the default list *)

(** C3, as the specification words it, fails: for a container with no
    children and no explicit constraints the returned list holds none of
    the eight definitional constraints. *)
Lemma default_counts_fail :
  ~ counts_as_specified empty_container plain_world.
Proof.
  intros H. destruct (H eq_refl) as (res & Hres & _ & Hdef).
  vm_compute in Hres. injection Hres as <-.
  vm_compute in Hdef. discriminate Hdef.
Qed.

(** C3, amended: with no explicit constraints and [N] participating
    children, [Container.layout_constraints] returns a list of exactly one
    entry, the [vbox] helper called on those [N] children in order; the
    list holds no definitional anchor constraint and no single chain
    constraint. *)
Theorem Container_default_list (self : Container.t) (w : world) :
  lists w !! Container.constraints self = Some [] ->
  exists res args,
    returned_list (Container.layout_constraints self) w = Some res /\
    res = [vbox args None] /\
    args = BWidget <$> Container.widgets self /\
    length args = length (Container.widgets self) /\
    length res = 1 /\
    count is_linear res = 0 /\
    count is_chain res = 0 /\
    count (is_definitional (Container.self_id self)) res = 0.
Proof.
  intros Hl. eexists _, _. split; [| split; [reflexivity |]].
  - unfold returned_list.
    rewrite (Container_layout_constraints_run _ _ _ Hl). simpl.
    by rewrite lookup_insert_eq.
  - repeat split. by rewrite length_fmap.
Qed.

Lemma Container_default_list_witness :
  lists plain_world !! Container.constraints sample_container = Some [] /\
  exists res args,
    returned_list (Container.layout_constraints sample_container) plain_world
      = Some res /\
    res = [vbox args None] /\
    args = BWidget <$> Container.widgets sample_container /\
    length args = length (Container.widgets sample_container) /\
    length res = 1 /\
    count is_linear res = 0 /\
    count is_chain res = 0 /\
    count (is_definitional (Container.self_id sample_container)) res = 0.
Proof.
  split; [reflexivity |].
  apply (Container_default_list sample_container plain_world).
  reflexivity.
Defined.

(** ** Content anchors *)

Lemma two_sum : two = (1 + 1)%Qc.
Proof. apply Qc_is_canon. reflexivity. Qed.

Lemma midpoint (a b : Qc) : (a + (b - a) / two = (a + b) / two)%Qc.
Proof. rewrite two_sum. field. discriminate. Qed.

(** C4: under every assignment of values to the variables, the derived
    content anchors satisfy their defining equations: the width is right
    minus left, the height is bottom minus top, and each centre is the
    leading edge plus half of the span, which is the midpoint of the two
    edges. *)
Theorem contents_anchors_definitional (self : Container.t) (rho : variable -> Qc) :
  let x0 := eval rho (Container.contents_left self) in
  let x1 := eval rho (Container.contents_right self) in
  let y0 := eval rho (Container.contents_top self) in
  let y1 := eval rho (Container.contents_bottom self) in
  let width := eval rho (Container.contents_width self) in
  let height := eval rho (Container.contents_height self) in
  (width = x1 - x0 /\
   height = y1 - y0 /\
   eval rho (Container.contents_v_center self) = y0 + height / two /\
   eval rho (Container.contents_h_center self) = x0 + width / two /\
   eval rho (Container.contents_v_center self) = (y0 + y1) / two /\
   eval rho (Container.contents_h_center self) = (x0 + x1) / two)%Qc.
Proof.
  simpl. repeat split; apply midpoint.
Qed.

(** ** Constraint collection leaves the container as it was *)

(** C5: for an instance of any of the three classes, [layout_constraints]
    changes no list that existed before the call and makes no call out of
    the module; the stored explicit list has the same entries afterwards;
    the returned list is a new object, distinct from the stored one, so
    that appending to it does not reach the stored list; and a second call
    returns a list with the same entries. *)
Theorem layout_constraints_pure (i : instance) (w : world) (cs : list item) :
  lists w !! Container.constraints (as_Container i) = Some cs ->
  exists l w',
    layout_constraints i w = Returned l w' /\
    lists w !! l = None /\
    l <> Container.constraints (as_Container i) /\
    (forall k, k <> l -> lists w' !! k = lists w !! k) /\
    lists w' !! Container.constraints (as_Container i) = Some cs /\
    calls w' = calls w /\
    (forall x, exists w'',
        list_append l x w' = Returned tt w'' /\
        lists w'' !! Container.constraints (as_Container i) = Some cs) /\
    exists l2 w2,
      layout_constraints i w' = Returned l2 w2 /\
      l2 <> l /\
      l2 <> Container.constraints (as_Container i) /\
      lists w2 !! l2 = lists w' !! l /\
      lists w2 !! Container.constraints (as_Container i) = Some cs /\
      calls w2 = calls w.
Proof.
  intros Hl.
  pose proof (fresh_loc_differs _ _ _ Hl) as Hne.
  set (l := fresh (dom (lists w))) in *.
  set (w' := World (<[l := instance_result i cs]> (lists w)) (calls w)).
  assert (Hl' : lists w' !! Container.constraints (as_Container i) = Some cs).
  { simpl. by rewrite lookup_insert_ne. }
  exists l, w'. split; [by apply layout_constraints_run |].
  split; [apply fresh_loc_unused |].
  split; [done |].
  split; [intros k Hk; simpl; by rewrite lookup_insert_ne |].
  split; [done |].
  split; [done |].
  split.
  - intros x. unfold list_append. simpl. rewrite lookup_insert_eq.
    eexists. split; [reflexivity |]. simpl.
    rewrite insert_insert_eq. by rewrite lookup_insert_ne.
  - pose proof (fresh_loc_differs _ _ _ Hl') as Hne2.
    assert (Hll : lists w' !! l = Some (instance_result i cs)).
    { simpl. by rewrite lookup_insert_eq. }
    pose proof (fresh_loc_differs _ _ _ Hll) as Hne3.
    eexists _, _. split; [by apply layout_constraints_run |].
    split; [done |]. split; [done |].
    split; [| split; [| done]].
    + cbn [lists]. rewrite lookup_insert_eq. symmetry. apply Hll.
    + cbn [lists]. rewrite lookup_insert_ne by done. apply Hl'.
Qed.

Lemma layout_constraints_pure_witness :
  lists sample_world !! Container.constraints (as_Container (IVContainer sample_vcontainer))
    = Some [cn1] /\
  exists l w',
    layout_constraints (IVContainer sample_vcontainer) sample_world = Returned l w' /\
    lists sample_world !! l = None /\
    l <> Container.constraints (as_Container (IVContainer sample_vcontainer)) /\
    (forall k, k <> l -> lists w' !! k = lists sample_world !! k) /\
    lists w' !! Container.constraints (as_Container (IVContainer sample_vcontainer))
      = Some [cn1] /\
    calls w' = calls sample_world /\
    (forall x, exists w'',
        list_append l x w' = Returned tt w'' /\
        lists w'' !! Container.constraints (as_Container (IVContainer sample_vcontainer))
          = Some [cn1]) /\
    exists l2 w2,
      layout_constraints (IVContainer sample_vcontainer) w' = Returned l2 w2 /\
      l2 <> l /\
      l2 <> Container.constraints (as_Container (IVContainer sample_vcontainer)) /\
      lists w2 !! l2 = lists w' !! l /\
      lists w2 !! Container.constraints (as_Container (IVContainer sample_vcontainer))
        = Some [cn1] /\
      calls w2 = calls sample_world.
Proof.
  split; [reflexivity |].
  apply (layout_constraints_pure (IVContainer sample_vcontainer) sample_world [cn1]).
  reflexivity.
Defined.

(** ** Observed members *)

Lemma layout_status_invalidated (id : oid) (cs : list call) (c : change) :
  layout_status id (cs ++ [super_layout_invalidated id c]) = DIRTY.
Proof.
  unfold layout_status. rewrite foldl_app. simpl.
  by rewrite bool_decide_eq_true_2.
Qed.

Lemma layout_status_requested (id : oid) (cs : list call) :
  layout_status id (cs ++ [request_relayout id]) = DIRTY.
Proof.
  unfold layout_status. rewrite foldl_app. simpl.
  by rewrite bool_decide_eq_true_2.
Qed.

Lemma notify_changed (self : Container.t) (name : string) (old new : attr_value)
    (w : world) :
  old <> new -> name ∈ Container.observed ->
  Container.notify self name old new w =
    Returned tt
      (World (lists w)
         (calls w ++ [super_layout_invalidated (Container.self_id self)
                        (Change "update" (Container.self_id self) name old new)])).
Proof.
  intros Hne Hin. unfold Container.notify.
  rewrite bool_decide_eq_false_2 by done.
  by rewrite bool_decide_eq_true_2 by done.
Qed.

(** C6: an assignment that changes the [padding] or the [share_layout] of a
    container runs the invalidation handler once, with the update change
    of that member, and the container is dirty afterwards, whatever its
    state was before. *)
Theorem observed_members_invalidate (self : Container.t) (w : world) :
  (forall box, box <> Container.padding self ->
     exists self' w',
       Container.set_padding self box w = Returned self' w' /\
       Container.padding self' = box /\
       calls_made (Container.set_padding self box) w =
         [super_layout_invalidated (Container.self_id self)
            (Change "update" (Container.self_id self) "padding"
               (VBox (Container.padding self)) (VBox box))] /\
       layout_status (Container.self_id self) (calls w') = DIRTY) /\
  (forall flag, flag <> Container.share_layout self ->
     exists self' w',
       Container.set_share_layout self flag w = Returned self' w' /\
       Container.share_layout self' = flag /\
       calls_made (Container.set_share_layout self flag) w =
         [super_layout_invalidated (Container.self_id self)
            (Change "update" (Container.self_id self) "share_layout"
               (VBool (Container.share_layout self)) (VBool flag))] /\
       layout_status (Container.self_id self) (calls w') = DIRTY).
Proof.
  split.
  - intros box Hne.
    assert (Hv : VBox (Container.padding self) <> VBox box) by congruence.
    assert (Hin : "padding" ∈ Container.observed)
      by (unfold Container.observed; set_solver).
    unfold calls_made, Container.set_padding. run_bind.
    rewrite (notify_changed _ _ _ _ w Hv Hin). cbn [Container.self_id].
    eexists _, _. split; [reflexivity |]. split; [reflexivity |]. split.
    + cbn [calls]. by rewrite drop_app_length.
    + cbn [calls]. apply layout_status_invalidated.
  - intros flag Hne.
    assert (Hv : VBool (Container.share_layout self) <> VBool flag) by congruence.
    assert (Hin : "share_layout" ∈ Container.observed)
      by (unfold Container.observed; set_solver).
    unfold calls_made, Container.set_share_layout. run_bind.
    rewrite (notify_changed _ _ _ _ w Hv Hin). cbn [Container.self_id].
    eexists _, _. split; [reflexivity |]. split; [reflexivity |]. split.
    + cbn [calls]. by rewrite drop_app_length.
    + cbn [calls]. apply layout_status_invalidated.
Qed.

Lemma observed_members_invalidate_witness :
  (5, 5, 5, 5)%Z <> Container.padding sample_container /\
  exists self' w',
    Container.set_padding sample_container (5, 5, 5, 5)%Z sample_world
      = Returned self' w' /\
    Container.padding self' = (5, 5, 5, 5)%Z /\
    calls_made (Container.set_padding sample_container (5, 5, 5, 5)%Z) sample_world =
      [super_layout_invalidated (Container.self_id sample_container)
         (Change "update" (Container.self_id sample_container) "padding"
            (VBox (Container.padding sample_container)) (VBox (5, 5, 5, 5)%Z))] /\
    layout_status (Container.self_id sample_container) (calls w') = DIRTY.
Proof.
  assert (Hne : (5, 5, 5, 5)%Z <> Container.padding sample_container)
    by (simpl; discriminate).
  split; [exact Hne |].
  exact (proj1 (observed_members_invalidate sample_container sample_world)
           (5, 5, 5, 5)%Z Hne).
Defined.

(** ** Child events *)

(** C7: [child_added] and [child_removed] pass the event to the superclass
    and then request a relayout exactly when the child is an instance of
    [ConstraintsWidget], which every [Container], [VContainer] and
    [HContainer] is; they return no value. *)
Theorem child_events_relayout (self : Container.t) (child : element) (w : world) :
  Container.child_added self child w =
    Returned tt
      (World (lists w)
         (calls w ++
          super_child_added (Container.self_id self) child ::
          (if isinstance child "ConstraintsWidget"
           then [request_relayout (Container.self_id self)] else []))) /\
  (request_relayout (Container.self_id self)
     ∈ calls_made (Container.child_added self child) w <->
   isinstance child "ConstraintsWidget" = true) /\
  Container.child_removed self child w =
    Returned tt
      (World (lists w)
         (calls w ++
          super_child_removed (Container.self_id self) child ::
          (if isinstance child "ConstraintsWidget"
           then [request_relayout (Container.self_id self)] else []))) /\
  (request_relayout (Container.self_id self)
     ∈ calls_made (Container.child_removed self child) w <->
   isinstance child "ConstraintsWidget" = true) /\
  (forall id above,
     isinstance (Element id (Container_class above)) "ConstraintsWidget" = true /\
     isinstance (Element id (VContainer_class above)) "ConstraintsWidget" = true /\
     isinstance (Element id (HContainer_class above)) "ConstraintsWidget" = true).
Proof.
  assert (Ha : Container.child_added self child w =
    Returned tt
      (World (lists w)
         (calls w ++
          super_child_added (Container.self_id self) child ::
          (if isinstance child "ConstraintsWidget"
           then [request_relayout (Container.self_id self)] else [])))).
  { unfold Container.child_added, invoke. run_bind.
    destruct (isinstance child "ConstraintsWidget"); simpl.
    - by rewrite <- app_assoc.
    - done. }
  assert (Hr : Container.child_removed self child w =
    Returned tt
      (World (lists w)
         (calls w ++
          super_child_removed (Container.self_id self) child ::
          (if isinstance child "ConstraintsWidget"
           then [request_relayout (Container.self_id self)] else [])))).
  { unfold Container.child_removed, invoke. run_bind.
    destruct (isinstance child "ConstraintsWidget"); simpl.
    - by rewrite <- app_assoc.
    - done. }
  split; [exact Ha |]. split; [| split; [exact Hr | split]].
  - unfold calls_made. rewrite Ha. cbn [calls]. rewrite drop_app_length.
    destruct (isinstance child "ConstraintsWidget");
      rewrite !elem_of_cons, elem_of_nil.
    + split; [done | intros _; right; by left].
    + split; [intros [Heq | []]; discriminate Heq | discriminate].
  - unfold calls_made. rewrite Hr. cbn [calls]. rewrite drop_app_length.
    destruct (isinstance child "ConstraintsWidget");
      rewrite !elem_of_cons, elem_of_nil.
    + split; [done | intros _; right; by left].
    + split; [intros [Heq | []]; discriminate Heq | discriminate].
  - intros id above. unfold isinstance. simpl.
    repeat split; apply bool_decide_eq_true_2; set_solver.
Qed.

(** ** The participating children *)

Lemma sublist_filter_all {A} (p : A -> bool) (l xs : list A) :
  sublist l xs -> Forall (fun c => p c = true) l -> sublist l (List.filter p xs).
Proof.
  induction 1 as [| x l1 l2 Hs IH | x l1 l2 Hs IH]; intros Hall; simpl.
  - constructor.
  - inversion Hall as [| ? ? Hx Hrest]; subst. rewrite Hx.
    constructor. by apply IH.
  - destruct (p x); [constructor |]; by apply IH.
Qed.

Lemma filter_sublist {A} (p : A -> bool) (xs : list A) :
  sublist (List.filter p xs) xs.
Proof.
  induction xs as [| x xs IH]; simpl; [constructor |].
  destruct (p x); by constructor.
Qed.

(** C8: [widgets()] is the subsequence of the children, in their order,
    made of exactly the instances of [ConstraintsWidget]: it is a
    subsequence of the children, its members are the participating
    children, and every subsequence of participating children is a
    subsequence of it. *)
Theorem widgets_participating_subsequence (self : Container.t) :
  sublist (Container.widgets self) (Container.children self) /\
  (forall c, c ∈ Container.widgets self <->
             c ∈ Container.children self /\
             isinstance c "ConstraintsWidget" = true) /\
  (forall l, sublist l (Container.children self) ->
             Forall (fun c => isinstance c "ConstraintsWidget" = true) l ->
             sublist l (Container.widgets self)).
Proof.
  unfold Container.widgets. split; [apply filter_sublist | split].
  - intros c. rewrite !list_elem_of_In. apply filter_In.
  - intros l. apply sublist_filter_all.
Qed.

Lemma widgets_participating_subsequence_witness :
  sublist [label1; label2] (Container.children sample_container) /\
  Forall (fun c => isinstance c "ConstraintsWidget" = true) [label1; label2] /\
  sublist [label1; label2] (Container.widgets sample_container).
Proof.
  assert (Hs : sublist [label1; label2] (Container.children sample_container)).
  { simpl. apply sublist_skip, sublist_cons, sublist_skip, sublist_nil. }
  assert (Hp : Forall (fun c => isinstance c "ConstraintsWidget" = true)
                 [label1; label2]).
  { repeat constructor. }
  split; [exact Hs |]. split; [exact Hp |].
  exact (proj2 (proj2 (widgets_participating_subsequence sample_container))
           [label1; label2] Hs Hp).
Defined.

(** ** The spacing of the stacking containers *)

Lemma spacing_validate (name : string) (v : Z) (w : world) :
  Range_validate (Range_ (Some 0%Z) None 10%Z) name v w =
    if (v <? 0)%Z then Raised (ValidationError name) w else Returned v w.
Proof. unfold Range_validate. simpl. by destruct (v <? 0)%Z. Qed.

Lemma V_set_spacing_returned (self self' : VContainer.t) (v : Z) (w w' : world) :
  VContainer.set_spacing self v w = Returned self' w' ->
  (0 <= v)%Z /\ VContainer.spacing self' = v /\ w' = w.
Proof.
  unfold VContainer.set_spacing, VContainer.spacing_member. run_bind.
  rewrite spacing_validate. destruct (Z.ltb_spec v 0); [discriminate |].
  intros [= <- <-]. by simpl.
Qed.

Lemma H_set_spacing_returned (self self' : HContainer.t) (v : Z) (w w' : world) :
  HContainer.set_spacing self v w = Returned self' w' ->
  (0 <= v)%Z /\ HContainer.spacing self' = v /\ w' = w.
Proof.
  unfold HContainer.set_spacing, HContainer.spacing_member. run_bind.
  rewrite spacing_validate. destruct (Z.ltb_spec v 0); [discriminate |].
  intros [= <- <-]. by simpl.
Qed.

(** C9: the [spacing] of a [VContainer] and of an [HContainer] is 10 in a
    new object; assigning a negative value raises at the assignment and
    stores nothing; assigning any other value stores it; so the spacing of
    every object a program can hold is non-negative. *)
Theorem spacing_non_negative :
  ((forall id w self w',
      VContainer.new id w = Returned self w' -> VContainer.spacing self = 10%Z) /\
   (forall self v w, (v < 0)%Z ->
      VContainer.set_spacing self v w = Raised (ValidationError "spacing") w) /\
   (forall self v w, (0 <= v)%Z ->
      exists self',
        VContainer.set_spacing self v w = Returned self' w /\
        VContainer.spacing self' = v) /\
   (forall self, V_reachable self -> (0 <= VContainer.spacing self)%Z)) /\
  ((forall id w self w',
      HContainer.new id w = Returned self w' -> HContainer.spacing self = 10%Z) /\
   (forall self v w, (v < 0)%Z ->
      HContainer.set_spacing self v w = Raised (ValidationError "spacing") w) /\
   (forall self v w, (0 <= v)%Z ->
      exists self',
        HContainer.set_spacing self v w = Returned self' w /\
        HContainer.spacing self' = v) /\
   (forall self, H_reachable self -> (0 <= HContainer.spacing self)%Z)).
Proof.
  assert (Vnew : forall id w self w',
            VContainer.new id w = Returned self w' ->
            VContainer.spacing self = 10%Z).
  { intros id w self w'. unfold VContainer.new, Container.new, list_new.
    run_bind. by intros [= <- <-]. }
  assert (Hnew : forall id w self w',
            HContainer.new id w = Returned self w' ->
            HContainer.spacing self = 10%Z).
  { intros id w self w'. unfold HContainer.new, Container.new, list_new.
    run_bind. by intros [= <- <-]. }
  split.
  - split; [exact Vnew |]. split; [| split].
    + intros self v w Hv.
      unfold VContainer.set_spacing, VContainer.spacing_member. run_bind.
      rewrite spacing_validate. by destruct (Z.ltb_spec v 0); [| lia].
    + intros self v w Hv.
      unfold VContainer.set_spacing, VContainer.spacing_member. run_bind.
      rewrite spacing_validate. destruct (Z.ltb_spec v 0); [lia |].
      by eexists.
    + induction 1 as [id w self w' Hn | self v w self' w' _ IH Hs
                     | self box w b' w' _ IH _ | self top bottom _ IH].
      * rewrite (Vnew _ _ _ _ Hn). lia.
      * apply V_set_spacing_returned in Hs as (Hv & -> & _). exact Hv.
      * exact IH.
      * exact IH.
  - split; [exact Hnew |]. split; [| split].
    + intros self v w Hv.
      unfold HContainer.set_spacing, HContainer.spacing_member. run_bind.
      rewrite spacing_validate. by destruct (Z.ltb_spec v 0); [| lia].
    + intros self v w Hv.
      unfold HContainer.set_spacing, HContainer.spacing_member. run_bind.
      rewrite spacing_validate. destruct (Z.ltb_spec v 0); [lia |].
      by eexists.
    + induction 1 as [id w self w' Hn | self v w self' w' _ IH Hs
                     | self box w b' w' _ IH _ | self l r _ IH].
      * rewrite (Hnew _ _ _ _ Hn). lia.
      * apply H_set_spacing_returned in Hs as (Hv & -> & _). exact Hv.
      * exact IH.
      * exact IH.
Qed.

Lemma spacing_non_negative_witness :
  V_reachable spaced_vcontainer /\
  (0 <= VContainer.spacing spaced_vcontainer)%Z /\
  ((-1) < 0)%Z /\
  VContainer.set_spacing spaced_vcontainer (-1)%Z world0
    = Raised (ValidationError "spacing") world0.
Proof.
  assert (Hr : V_reachable spaced_vcontainer).
  { apply (V_reach_set_spacing new_vcontainer 3%Z plain_world
             spaced_vcontainer plain_world).
    - apply (V_reach_new 1%positive world0 new_vcontainer plain_world).
      reflexivity.
    - reflexivity. }
  assert (Hneg : ((-1) < 0)%Z) by lia.
  split; [exact Hr |].
  split; [exact (proj2 (proj2 (proj2 (proj1 spacing_non_negative)))
                   spaced_vcontainer Hr) |].
  split; [exact Hneg |].
  exact (proj1 (proj2 (proj1 spacing_non_negative))
           spaced_vcontainer (-1)%Z world0 Hneg).
Defined.

(** ** Hugging defaults *)

(** C10: a new [Container], and so a new [VContainer] and a new
    [HContainer], has [hug_width] and [hug_height] equal to ['ignore']. *)
Theorem hug_defaults_ignore (id : oid) (w : world) :
  (exists self w',
     Container.new id w = Returned self w' /\
     Container.hug_width self = "ignore" /\
     Container.hug_height self = "ignore") /\
  (exists self w',
     VContainer.new id w = Returned self w' /\
     Container.hug_width (VContainer.base self) = "ignore" /\
     Container.hug_height (VContainer.base self) = "ignore") /\
  (exists self w',
     HContainer.new id w = Returned self w' /\
     Container.hug_width (HContainer.base self) = "ignore" /\
     Container.hug_height (HContainer.base self) = "ignore").
Proof.
  repeat split; eexists _, _; repeat split.
Qed.

(** * Further properties *)

(** ** Child events and the laid-out widgets *)

Lemma child_added_calls (self : Container.t) (child : element) (w : world) :
  calls_made (Container.child_added self child) w =
    super_child_added (Container.self_id self) child ::
    (if isinstance child "ConstraintsWidget"
     then [request_relayout (Container.self_id self)] else []).
Proof.
  unfold calls_made, Container.child_added, invoke. run_bind.
  destruct (isinstance child "ConstraintsWidget"); simpl.
  - by rewrite <- app_assoc, drop_app_length.
  - by rewrite drop_app_length.
Qed.

Lemma child_removed_calls (self : Container.t) (child : element) (w : world) :
  calls_made (Container.child_removed self child) w =
    super_child_removed (Container.self_id self) child ::
    (if isinstance child "ConstraintsWidget"
     then [request_relayout (Container.self_id self)] else []).
Proof.
  unfold calls_made, Container.child_removed, invoke. run_bind.
  destruct (isinstance child "ConstraintsWidget"); simpl.
  - by rewrite <- app_assoc, drop_app_length.
  - by rewrite drop_app_length.
Qed.

Lemma widgets_split (self : Container.t) (pre post : list element) (c : element) :
  Container.widgets (with_children self (pre ++ c :: post)) =
    Container.widgets (with_children self pre) ++
    (if isinstance c "ConstraintsWidget" then [c] else []) ++
    Container.widgets (with_children self post).
Proof.
  unfold Container.widgets. simpl. rewrite List.filter_app. simpl.
  by destruct (isinstance c "ConstraintsWidget").
Qed.

Lemma widgets_join (self : Container.t) (pre post : list element) :
  Container.widgets (with_children self (pre ++ post)) =
    Container.widgets (with_children self pre) ++
    Container.widgets (with_children self post).
Proof. unfold Container.widgets. simpl. apply List.filter_app. Qed.

Lemma widgets_change_iff (self : Container.t) (pre post : list element) (c : element) :
  Container.widgets (with_children self (pre ++ c :: post)) <>
    Container.widgets (with_children self (pre ++ post)) <->
  isinstance c "ConstraintsWidget" = true.
Proof.
  rewrite widgets_split, widgets_join.
  destruct (isinstance c "ConstraintsWidget"); simpl.
  - split; [done |]. intros _ Heq.
    apply (f_equal length) in Heq. rewrite !length_app in Heq. simpl in Heq. lia.
  - split; [intros Hne; by destruct Hne | discriminate].
Qed.

(** X1: when a child has been inserted anywhere among the children,
    [child_added] requests a relayout exactly when the insertion changed
    [widgets()]. *)
Theorem child_added_relayout_iff_widgets_change
    (self : Container.t) (pre post : list element) (c : element) (w : world) :
  Container.children self = pre ++ c :: post ->
  (request_relayout (Container.self_id self)
     ∈ calls_made (Container.child_added self c) w <->
   Container.widgets self <> Container.widgets (with_children self (pre ++ post))).
Proof.
  intros Hch.
  assert (Hw : Container.widgets self =
               Container.widgets (with_children self (pre ++ c :: post))).
  { unfold Container.widgets. simpl. by rewrite Hch. }
  rewrite Hw, widgets_change_iff, child_added_calls.
  destruct (isinstance c "ConstraintsWidget");
    rewrite !elem_of_cons, elem_of_nil.
  - split; [done | intros _; right; by left].
  - split; [intros [Heq | []]; discriminate Heq | discriminate].
Qed.

Lemma child_added_relayout_iff_widgets_change_witness :
  Container.children nested_container = [label1] ++ inner_v :: [timer1] /\
  (request_relayout (Container.self_id nested_container)
     ∈ calls_made (Container.child_added nested_container inner_v) world0 <->
   Container.widgets nested_container <>
     Container.widgets (with_children nested_container ([label1] ++ [timer1]))).
Proof.
  split; [reflexivity |].
  apply (child_added_relayout_iff_widgets_change
           nested_container [label1] [timer1] inner_v world0).
  reflexivity.
Defined.

(** X2: when a child has been taken out from anywhere among the children,
    [child_removed] requests a relayout exactly when the removal changed
    [widgets()]. *)
Theorem child_removed_relayout_iff_widgets_change
    (self : Container.t) (pre post : list element) (c : element) (w : world) :
  Container.children self = pre ++ post ->
  (request_relayout (Container.self_id self)
     ∈ calls_made (Container.child_removed self c) w <->
   Container.widgets self <>
     Container.widgets (with_children self (pre ++ c :: post))).
Proof.
  intros Hch.
  assert (Hw : Container.widgets self =
               Container.widgets (with_children self (pre ++ post))).
  { unfold Container.widgets. simpl. by rewrite Hch. }
  rewrite Hw, child_removed_calls.
  assert (Hsym : Container.widgets (with_children self (pre ++ post)) <>
                 Container.widgets (with_children self (pre ++ c :: post)) <->
                 isinstance c "ConstraintsWidget" = true).
  { rewrite <- widgets_change_iff. split; intros Hne Heq; by apply Hne. }
  rewrite Hsym.
  destruct (isinstance c "ConstraintsWidget");
    rewrite !elem_of_cons, elem_of_nil.
  - split; [done | intros _; right; by left].
  - split; [intros [Heq | []]; discriminate Heq | discriminate].
Qed.

Lemma child_removed_relayout_iff_widgets_change_witness :
  Container.children sample_container = [label1; timer1] ++ [label2] /\
  (request_relayout (Container.self_id sample_container)
     ∈ calls_made (Container.child_removed sample_container inner_v) world0 <->
   Container.widgets sample_container <>
     Container.widgets
       (with_children sample_container ([label1; timer1] ++ inner_v :: [label2]))).
Proof.
  split; [reflexivity |].
  apply (child_removed_relayout_iff_widgets_change
           sample_container [label1; timer1] [label2] inner_v world0).
  reflexivity.
Defined.

(** ** The shape of [widgets()] *)

Lemma filter_length_le {A} (p : A -> bool) (xs : list A) :
  length (List.filter p xs) <= length xs.
Proof.
  induction xs as [| x xs IH]; simpl; [lia |].
  destruct (p x); simpl; lia.
Qed.

Lemma filter_all_iff {A} (p : A -> bool) (xs : list A) :
  List.filter p xs = xs <-> Forall (fun x => p x = true) xs.
Proof.
  induction xs as [| x xs IH]; simpl.
  - split; [constructor | done].
  - destruct (p x) eqn:Hx; split.
    + intros [= Heq]. constructor; [done | by apply IH].
    + intros Hall. inversion Hall; subst. f_equal. by apply IH.
    + intros Heq. pose proof (filter_length_le p xs) as Hle.
      rewrite Heq in Hle. simpl in Hle. lia.
    + intros Hall. inversion Hall; subst. congruence.
Qed.

Lemma filter_none_iff {A} (p : A -> bool) (xs : list A) :
  List.filter p xs = [] <-> Forall (fun x => p x = false) xs.
Proof.
  induction xs as [| x xs IH]; simpl.
  - split; [constructor | done].
  - destruct (p x) eqn:Hx; split.
    + discriminate.
    + intros Hall. inversion Hall; subst. congruence.
    + intros Heq. constructor; [done | by apply IH].
    + intros Hall. inversion Hall; subst. by apply IH.
Qed.

(** X3: [widgets()] never has more entries than the children; it is the
    whole list of children exactly when every child is a
    [ConstraintsWidget], and empty exactly when none is; a child listed
    once is returned at most once; and filtering its own result again
    changes nothing. *)
Theorem widgets_shape (self : Container.t) :
  length (Container.widgets self) <= length (Container.children self) /\
  (Container.widgets self = Container.children self <->
   Forall (fun c => isinstance c "ConstraintsWidget" = true)
     (Container.children self)) /\
  (Container.widgets self = [] <->
   Forall (fun c => isinstance c "ConstraintsWidget" = false)
     (Container.children self)) /\
  (NoDup (Container.children self) -> NoDup (Container.widgets self)) /\
  Container.widgets (with_children self (Container.widgets self)) =
    Container.widgets self.
Proof.
  unfold Container.widgets. simpl.
  split; [apply filter_length_le |].
  split; [apply filter_all_iff |].
  split; [apply filter_none_iff |].
  split.
  - intros Hnd. eapply sublist_NoDup; [exact Hnd | apply filter_sublist].
  - apply filter_all_iff, Forall_forall. intros c Hc.
    apply list_elem_of_In, filter_In in Hc. by destruct Hc.
Qed.

Lemma widgets_shape_witness :
  NoDup (Container.children sample_container) /\
  NoDup (Container.widgets sample_container).
Proof.
  assert (Hnd : NoDup (Container.children sample_container)).
  { simpl. repeat constructor; rewrite ?elem_of_cons, ?elem_of_nil;
      intros H; repeat destruct H as [H | H]; try discriminate H; done. }
  split; [exact Hnd |].
  exact (proj1 (proj2 (proj2 (proj2 (widgets_shape sample_container)))) Hnd).
Defined.

(** ** The arguments of the box helper *)

Lemma V_items_eq (self : VContainer.t) :
  VContainer.items self =
    option_list (BSpacer <$> VContainer.top_spacer self) ++
    (BWidget <$> Container.widgets (VContainer.base self)) ++
    option_list (BSpacer <$> VContainer.bottom_spacer self).
Proof.
  unfold VContainer.items.
  destruct (VContainer.top_spacer self), (VContainer.bottom_spacer self);
    simpl; by rewrite ?app_nil_r, <- ?app_assoc.
Qed.

Lemma H_items_eq (self : HContainer.t) :
  HContainer.items self =
    option_list (BSpacer <$> HContainer.left_spacer self) ++
    (BWidget <$> Container.widgets (HContainer.base self)) ++
    option_list (BSpacer <$> HContainer.right_spacer self).
Proof.
  unfold HContainer.items.
  destruct (HContainer.left_spacer self), (HContainer.right_spacer self);
    simpl; by rewrite ?app_nil_r, <- ?app_assoc.
Qed.

Lemma omap_widgets (ws : list element) :
  omap item_widget (BWidget <$> ws) = ws.
Proof. induction ws as [| c ws IH]; csimpl; [done | by f_equal]. Qed.

Lemma stack_structure (lead trail : option Spacer) (ws : list element) :
  let its := option_list (BSpacer <$> lead) ++ (BWidget <$> ws) ++
             option_list (BSpacer <$> trail) in
  omap item_widget its = ws /\
  length its =
    length ws + length (option_list lead) + length (option_list trail) /\
  (forall s, lead = Some s -> head its = Some (BSpacer s)) /\
  (forall s, trail = Some s -> last its = Some (BSpacer s)) /\
  (forall c, BWidget c ∈ its <-> c ∈ ws) /\
  (forall s, BSpacer s ∈ its <-> lead = Some s \/ trail = Some s).
Proof.
  intros its. subst its. repeat split.
  - rewrite !omap_app, omap_widgets.
    destruct lead, trail; simpl; by rewrite ?app_nil_r.
  - rewrite !length_app, length_fmap. destruct lead, trail; simpl; lia.
  - intros s ->. done.
  - intros s ->. simpl. by rewrite app_assoc, last_snoc.
  - rewrite !elem_of_app, list_elem_of_fmap.
    intros [Hl | [(c' & [= ->] & Hc) | Ht]]; [| done |].
    + destruct lead; simpl in Hl; [| by apply elem_of_nil in Hl].
      apply list_elem_of_singleton in Hl. discriminate Hl.
    + destruct trail; simpl in Ht; [| by apply elem_of_nil in Ht].
      apply list_elem_of_singleton in Ht. discriminate Ht.
  - intros Hc. rewrite !elem_of_app, list_elem_of_fmap. right. left. eauto.
  - rewrite !elem_of_app, list_elem_of_fmap.
    intros [Hl | [(c' & Heq & _) | Ht]]; [| discriminate Heq |].
    + destruct lead; simpl in Hl; [| by apply elem_of_nil in Hl].
      apply list_elem_of_singleton in Hl. left. congruence.
    + destruct trail; simpl in Ht; [| by apply elem_of_nil in Ht].
      apply list_elem_of_singleton in Ht. right. congruence.
  - rewrite !elem_of_app. intros [-> | ->]; simpl.
    + left. by apply list_elem_of_singleton.
    + right. right. by apply list_elem_of_singleton.
Qed.

(** X4: the arguments a [VContainer] passes to [vbox]: without the spacers
    they are [widgets()], in order; their number is that of the widgets
    plus one for each spacer that is set; a top spacer is the first
    argument and a bottom spacer the last; a child is an argument exactly
    when it is a participating child; and a spacer is an argument exactly
    when it is the top or the bottom spacer. *)
Theorem VContainer_items_structure (self : VContainer.t) :
  omap item_widget (VContainer.items self) =
    Container.widgets (VContainer.base self) /\
  length (VContainer.items self) =
    length (Container.widgets (VContainer.base self)) +
    length (option_list (VContainer.top_spacer self)) +
    length (option_list (VContainer.bottom_spacer self)) /\
  (forall s, VContainer.top_spacer self = Some s ->
             head (VContainer.items self) = Some (BSpacer s)) /\
  (forall s, VContainer.bottom_spacer self = Some s ->
             last (VContainer.items self) = Some (BSpacer s)) /\
  (forall c, BWidget c ∈ VContainer.items self <->
             c ∈ Container.children (VContainer.base self) /\
             isinstance c "ConstraintsWidget" = true) /\
  (forall s, BSpacer s ∈ VContainer.items self <->
             VContainer.top_spacer self = Some s \/
             VContainer.bottom_spacer self = Some s).
Proof.
  rewrite V_items_eq.
  destruct (stack_structure (VContainer.top_spacer self)
              (VContainer.bottom_spacer self)
              (Container.widgets (VContainer.base self)))
    as (H1 & H2 & H3 & H4 & H5 & H6).
  repeat (split; [assumption |]). split; [| assumption].
  intros c. rewrite H5. unfold Container.widgets.
  rewrite !list_elem_of_In. apply filter_In.
Qed.

(** X5: the arguments an [HContainer] passes to [hbox], with the left and
    the right spacer in the place of the top and the bottom one. *)
Theorem HContainer_items_structure (self : HContainer.t) :
  omap item_widget (HContainer.items self) =
    Container.widgets (HContainer.base self) /\
  length (HContainer.items self) =
    length (Container.widgets (HContainer.base self)) +
    length (option_list (HContainer.left_spacer self)) +
    length (option_list (HContainer.right_spacer self)) /\
  (forall s, HContainer.left_spacer self = Some s ->
             head (HContainer.items self) = Some (BSpacer s)) /\
  (forall s, HContainer.right_spacer self = Some s ->
             last (HContainer.items self) = Some (BSpacer s)) /\
  (forall c, BWidget c ∈ HContainer.items self <->
             c ∈ Container.children (HContainer.base self) /\
             isinstance c "ConstraintsWidget" = true) /\
  (forall s, BSpacer s ∈ HContainer.items self <->
             HContainer.left_spacer self = Some s \/
             HContainer.right_spacer self = Some s).
Proof.
  rewrite H_items_eq.
  destruct (stack_structure (HContainer.left_spacer self)
              (HContainer.right_spacer self)
              (Container.widgets (HContainer.base self)))
    as (H1 & H2 & H3 & H4 & H5 & H6).
  repeat (split; [assumption |]). split; [| assumption].
  intros c. rewrite H5. unfold Container.widgets.
  rewrite !list_elem_of_In. apply filter_In.
Qed.

(** ** The spacing handed to the box helper *)





Lemma V_returned_list (self : VContainer.t) (w : world) (cs : list item) :
  lists w !! Container.constraints (VContainer.base self) = Some cs ->
  returned_list (VContainer.layout_constraints self) w =
    Some (cs ++ [vbox (VContainer.items self) (Some (VContainer.spacing self))]).
Proof.
  intros Hl. unfold returned_list.
  rewrite (VContainer_layout_constraints_run _ _ _ Hl). simpl.
  by rewrite lookup_insert_eq.
Qed.

Lemma H_returned_list (self : HContainer.t) (w : world) (cs : list item) :
  lists w !! Container.constraints (HContainer.base self) = Some cs ->
  returned_list (HContainer.layout_constraints self) w =
    Some (cs ++ [hbox (HContainer.items self) (Some (HContainer.spacing self))]).
Proof.
  intros Hl. unfold returned_list.
  rewrite (HContainer_layout_constraints_run _ _ _ Hl). simpl.
  by rewrite lookup_insert_eq.
Qed.



(** X8: assigning a spacing and then collecting the constraints: the
    helper is called with the value just assigned and with the same
    arguments as before the assignment, after the same explicit
    constraints; an assignment that raises leaves the object and so the
    collected list as they were. *)
Theorem set_spacing_then_layout_constraints
    (w : world) (cs : list item) (v : Z) :
  (forall self : VContainer.t,
     lists w !! Container.constraints (VContainer.base self) = Some cs ->
     match VContainer.set_spacing self v w with
     | Returned self' w' =>
         (0 <= v)%Z /\
         returned_list (VContainer.layout_constraints self') w' =
           Some (cs ++ [vbox (VContainer.items self) (Some v)])
     | Raised _ w' =>
         (v < 0)%Z /\
         returned_list (VContainer.layout_constraints self) w' =
           Some (cs ++ [vbox (VContainer.items self)
                          (Some (VContainer.spacing self))])
     end) /\
  (forall self : HContainer.t,
     lists w !! Container.constraints (HContainer.base self) = Some cs ->
     match HContainer.set_spacing self v w with
     | Returned self' w' =>
         (0 <= v)%Z /\
         returned_list (HContainer.layout_constraints self') w' =
           Some (cs ++ [hbox (HContainer.items self) (Some v)])
     | Raised _ w' =>
         (v < 0)%Z /\
         returned_list (HContainer.layout_constraints self) w' =
           Some (cs ++ [hbox (HContainer.items self)
                          (Some (HContainer.spacing self))])
     end).
Proof.
  split; intros self Hl.
  - unfold VContainer.set_spacing, VContainer.spacing_member. run_bind.
    rewrite spacing_validate. destruct (Z.ltb_spec v 0).
    + split; [done | by apply V_returned_list].
    + split; [done |]. by rewrite (V_returned_list _ _ cs).
  - unfold HContainer.set_spacing, HContainer.spacing_member. run_bind.
    rewrite spacing_validate. destruct (Z.ltb_spec v 0).
    + split; [done | by apply H_returned_list].
    + split; [done |]. by rewrite (H_returned_list _ _ cs).
Qed.

(** ** What the three methods share *)

Lemma instance_returned_list (i : instance) (w : world) (cs : list item) :
  lists w !! Container.constraints (as_Container i) = Some cs ->
  returned_list (layout_constraints i) w = Some (instance_result i cs).
Proof.
  intros Hl. unfold returned_list.
  rewrite (layout_constraints_run _ _ _ Hl). simpl.
  by rewrite lookup_insert_eq.
Qed.

(** X9: for an instance of any of the three classes the returned list is
    never empty, starts with the explicit constraints in their order, has
    at most one entry more, and an entry that is not an explicit
    constraint is a box helper. *)
Theorem layout_constraints_keeps_explicit (i : instance) (w : world) (cs : list item) :
  lists w !! Container.constraints (as_Container i) = Some cs ->
  exists res,
    returned_list (layout_constraints i) w = Some res /\
    res <> [] /\
    cs `prefix_of` res /\
    length res <= length cs + 1 /\
    (forall x, x ∈ res -> x ∈ cs \/ is_linear x = false).
Proof.
  intros Hl. exists (instance_result i cs).
  split; [by apply instance_returned_list |].
  destruct i as [c | c | c]; simpl.
  - unfold Container_result. case_bool_decide as Hcs.
    + subst cs. simpl. repeat split; [done | by eexists | lia |].
      intros x Hx. apply list_elem_of_singleton in Hx as ->. by right.
    + repeat split; [done | by exists []; rewrite app_nil_r | lia |].
      intros x Hx. by left.
  - repeat split.
    + intros Heq. by apply app_eq_nil in Heq as [_ Heq].
    + by eexists.
    + rewrite length_app. simpl. lia.
    + intros x [Hx | Hx]%elem_of_app; [by left |].
      apply list_elem_of_singleton in Hx as ->. by right.
  - repeat split.
    + intros Heq. by apply app_eq_nil in Heq as [_ Heq].
    + by eexists.
    + rewrite length_app. simpl. lia.
    + intros x [Hx | Hx]%elem_of_app; [by left |].
      apply list_elem_of_singleton in Hx as ->. by right.
Qed.

Lemma layout_constraints_keeps_explicit_witness :
  lists sample_world !! Container.constraints (as_Container (IHContainer sample_hcontainer))
    = Some [cn1] /\
  exists res,
    returned_list (layout_constraints (IHContainer sample_hcontainer)) sample_world
      = Some res /\
    res <> [] /\
    [cn1] `prefix_of` res /\
    length res <= length [cn1] + 1 /\
    (forall x, x ∈ res -> x ∈ [cn1] \/ is_linear x = false).
Proof.
  split; [reflexivity |].
  apply (layout_constraints_keeps_explicit (IHContainer sample_hcontainer)
           sample_world [cn1]).
  reflexivity.
Defined.

(** ** Observed members and the collected constraints *)

Lemma notify_lists (self : Container.t) (name : string) (old new : attr_value)
    (w : world) :
  exists w',
    Container.notify self name old new w = Returned tt w' /\
    lists w' = lists w.
Proof.
  unfold Container.notify, Container._layout_invalidated, invoke.
  repeat case_bool_decide; by eexists.
Qed.

Lemma Container_returned_list (self : Container.t) (w : world) (cs : list item) :
  lists w !! Container.constraints self = Some cs ->
  returned_list (Container.layout_constraints self) w =
    Some (Container_result self cs).
Proof.
  intros Hl. unfold returned_list.
  rewrite (Container_layout_constraints_run _ _ _ Hl). simpl.
  by rewrite lookup_insert_eq.
Qed.

(** X10: assigning [padding] or [share_layout] returns normally, changes no
    list and does not change what [layout_constraints] returns: neither
    member enters the collected constraints. *)
Theorem observed_members_keep_constraints
    (self : Container.t) (w : world) (cs : list item) :
  lists w !! Container.constraints self = Some cs ->
  (forall box, exists self' w',
      Container.set_padding self box w = Returned self' w' /\
      lists w' = lists w /\
      Container.widgets self' = Container.widgets self /\
      returned_list (Container.layout_constraints self') w' =
        returned_list (Container.layout_constraints self) w) /\
  (forall flag, exists self' w',
      Container.set_share_layout self flag w = Returned self' w' /\
      lists w' = lists w /\
      Container.widgets self' = Container.widgets self /\
      returned_list (Container.layout_constraints self') w' =
        returned_list (Container.layout_constraints self) w).
Proof.
  intros Hl. split.
  - intros box. unfold Container.set_padding. run_bind.
    match goal with
    | |- context [Container.notify ?s ?n ?o ?v w] =>
        destruct (notify_lists s n o v w) as (w' & -> & Hw')
    end.
    eexists _, w'. split; [reflexivity |]. split; [done |]. split; [done |].
    rewrite (Container_returned_list self w cs Hl).
    rewrite (Container_returned_list _ w' cs); [done |].
    simpl. by rewrite Hw'.
  - intros flag. unfold Container.set_share_layout. run_bind.
    match goal with
    | |- context [Container.notify ?s ?n ?o ?v w] =>
        destruct (notify_lists s n o v w) as (w' & -> & Hw')
    end.
    eexists _, w'. split; [reflexivity |]. split; [done |]. split; [done |].
    rewrite (Container_returned_list self w cs Hl).
    rewrite (Container_returned_list _ w' cs); [done |].
    simpl. by rewrite Hw'.
Qed.

Lemma observed_members_keep_constraints_witness :
  lists sample_world !! Container.constraints sample_container = Some [cn1] /\
  exists self' w',
    Container.set_padding sample_container (0, 0, 0, 0)%Z sample_world
      = Returned self' w' /\
    lists w' = lists sample_world /\
    Container.widgets self' = Container.widgets sample_container /\
    returned_list (Container.layout_constraints self') w' =
      returned_list (Container.layout_constraints sample_container) sample_world.
Proof.
  assert (Hl : lists sample_world !! Container.constraints sample_container
               = Some [cn1]) by reflexivity.
  split; [exact Hl |].
  exact (proj1 (observed_members_keep_constraints sample_container sample_world
                  [cn1] Hl) (0, 0, 0, 0)%Z).
Defined.

(** ** More on the content anchors *)








(** ** Sequences of child events *)

Lemma deliver_run (self : Container.t) (ev : child_event) (w : world) :
  deliver self ev w =
    Returned tt (World (lists w) (calls w ++ calls_made (deliver self ev) w)).
Proof.
  destruct ev as [c | c]; simpl.
  - rewrite child_added_calls.
    unfold Container.child_added, invoke. run_bind.
    destruct (isinstance c "ConstraintsWidget"); simpl; by rewrite <- ?app_assoc.
  - rewrite child_removed_calls.
    unfold Container.child_removed, invoke. run_bind.
    destruct (isinstance c "ConstraintsWidget"); simpl; by rewrite <- ?app_assoc.
Qed.

Lemma deliver_requests (self : Container.t) (ev : child_event) (w : world) :
  relayout_requests (Container.self_id self) (calls_made (deliver self ev) w) =
    if isinstance (event_child ev) "ConstraintsWidget" then 1 else 0.
Proof.
  destruct ev as [c | c]; simpl;
    rewrite ?child_added_calls, ?child_removed_calls;
    unfold relayout_requests; simpl;
    destruct (isinstance c "ConstraintsWidget"); simpl;
    rewrite ?bool_decide_eq_true_2, ?bool_decide_eq_false_2 by done; done.
Qed.

Lemma relayout_requests_app (id : oid) (xs ys : list call) :
  relayout_requests id (xs ++ ys) =
    relayout_requests id xs + relayout_requests id ys.
Proof. unfold relayout_requests. by rewrite List.filter_app, length_app. Qed.

Lemma deliver_all_run (self : Container.t) (evs : list child_event) (w : world) :
  exists made,
    deliver_all self evs w = Returned tt (World (lists w) (calls w ++ made)) /\
    relayout_requests (Container.self_id self) made =
      length (List.filter
                (fun ev => isinstance (event_child ev) "ConstraintsWidget") evs) /\
    length made = length evs + relayout_requests (Container.self_id self) made.
Proof.
  revert w. induction evs as [| ev evs IH]; intros w.
  - exists []. simpl. rewrite app_nil_r. by destruct w.
  - simpl. run_bind. rewrite deliver_run.
    destruct (IH (World (lists w) (calls w ++ calls_made (deliver self ev) w)))
      as (made & Hrun & Hreq & Hlen).
    exists (calls_made (deliver self ev) w ++ made).
    split; [| split].
    + rewrite Hrun. simpl. by rewrite <- app_assoc.
    + rewrite relayout_requests_app, Hreq, deliver_requests.
      by destruct (isinstance (event_child ev) "ConstraintsWidget").
    + rewrite relayout_requests_app, length_app, Hlen, deliver_requests.
      destruct ev as [c | c]; simpl;
        rewrite ?child_added_calls, ?child_removed_calls;
        destruct (isinstance c "ConstraintsWidget"); simpl; lia.
Qed.

(** X14: when any sequence of child events is delivered to a container,
    the handlers return normally and change no list, the container
    requests one relayout for each event whose child is a
    [ConstraintsWidget] (requests are not merged here) and none for the
    others, and each event makes one superclass call besides. *)
Theorem child_event_sequence (self : Container.t) (evs : list child_event) (w : world) :
  exists w',
    deliver_all self evs w = Returned tt w' /\
    lists w' = lists w /\
    relayout_requests (Container.self_id self)
      (calls_made (deliver_all self evs) w) =
      length (List.filter
                (fun ev => isinstance (event_child ev) "ConstraintsWidget") evs) /\
    length (calls_made (deliver_all self evs) w) =
      length evs +
      relayout_requests (Container.self_id self)
        (calls_made (deliver_all self evs) w).
Proof.
  destruct (deliver_all_run self evs w) as (made & Hrun & Hreq & Hlen).
  eexists. split; [exact Hrun |]. split; [done |].
  unfold calls_made. rewrite Hrun. simpl. rewrite drop_app_length. by split.
Qed.

(** ** The class hierarchy *)

(** X15: [VContainer] and [HContainer] both derive from [Container]
    directly: an instance of either is a [Container], an instance of one
    is not an instance of the other, and a plain [Container] is an
    instance of neither (given that no base of [ConstraintsWidget] bears
    these names). *)
Theorem stacking_classes_are_siblings (id : oid) (above : list string) :
  "VContainer" ∉ above -> "HContainer" ∉ above ->
  isinstance (Element id (VContainer_class above)) "Container" = true /\
  isinstance (Element id (HContainer_class above)) "Container" = true /\
  isinstance (Element id (VContainer_class above)) "HContainer" = false /\
  isinstance (Element id (HContainer_class above)) "VContainer" = false /\
  isinstance (Element id (Container_class above)) "VContainer" = false /\
  isinstance (Element id (Container_class above)) "HContainer" = false.
Proof.
  intros HV HH.
  unfold isinstance, VContainer_class, HContainer_class, Container_class,
    ConstraintsWidget_class.
  cbn [elem_class cls_mro].
  split; [apply bool_decide_eq_true_2; rewrite !elem_of_cons; auto |].
  split; [apply bool_decide_eq_true_2; rewrite !elem_of_cons; auto |].
  split; [apply bool_decide_eq_false_2; rewrite !elem_of_cons;
          intros [Hin | [Hin | [Hin | Hin]]]; by try discriminate Hin |].
  split; [apply bool_decide_eq_false_2; rewrite !elem_of_cons;
          intros [Hin | [Hin | [Hin | Hin]]]; by try discriminate Hin |].
  split; apply bool_decide_eq_false_2; rewrite !elem_of_cons;
    intros [Hin | [Hin | Hin]]; by try discriminate Hin.
Qed.

Lemma stacking_classes_are_siblings_witness :
  ("VContainer" ∉ ["Widget"; "Object"]) /\
  ("HContainer" ∉ ["Widget"; "Object"]) /\
  isinstance inner_v "Container" = true /\
  isinstance inner_v "HContainer" = false.
Proof.
  assert (HV : "VContainer" ∉ ["Widget"; "Object"]).
  { rewrite !elem_of_cons, elem_of_nil.
    intros H; repeat destruct H as [H | H]; try discriminate H; done. }
  assert (HH : "HContainer" ∉ ["Widget"; "Object"]).
  { rewrite !elem_of_cons, elem_of_nil.
    intros H; repeat destruct H as [H | H]; try discriminate H; done. }
  split; [exact HV |]. split; [exact HH |].
  pose proof (stacking_classes_are_siblings 15%positive ["Widget"; "Object"] HV HH)
    as (H1 & _ & H3 & _).
  split; [exact H1 | exact H3].
Defined.

(** ** Sample runs of the properties above *)

Lemma VContainer_items_structure_witness :
  VContainer.top_spacer spacer_vcontainer = Some spacer_a /\
  head (VContainer.items spacer_vcontainer) = Some (BSpacer spacer_a) /\
  VContainer.bottom_spacer spacer_vcontainer = Some spacer_b /\
  last (VContainer.items spacer_vcontainer) = Some (BSpacer spacer_b).
Proof.
  pose proof (VContainer_items_structure spacer_vcontainer)
    as (_ & _ & Hhead & Hlast & _).
  split; [reflexivity |]. split; [exact (Hhead spacer_a eq_refl) |].
  split; [reflexivity |]. exact (Hlast spacer_b eq_refl).
Defined.

Lemma HContainer_items_structure_witness :
  HContainer.left_spacer spacer_hcontainer = Some spacer_a /\
  head (HContainer.items spacer_hcontainer) = Some (BSpacer spacer_a) /\
  HContainer.right_spacer spacer_hcontainer = Some spacer_b /\
  last (HContainer.items spacer_hcontainer) = Some (BSpacer spacer_b).
Proof.
  pose proof (HContainer_items_structure spacer_hcontainer)
    as (_ & _ & Hhead & Hlast & _).
  split; [reflexivity |]. split; [exact (Hhead spacer_a eq_refl) |].
  split; [reflexivity |]. exact (Hlast spacer_b eq_refl).
Defined.



Lemma set_spacing_then_layout_constraints_witness :
  lists sample_world !! Container.constraints (VContainer.base sample_vcontainer)
    = Some [cn1] /\
  match VContainer.set_spacing sample_vcontainer 4%Z sample_world with
  | Returned self' w' =>
      (0 <= 4)%Z /\
      returned_list (VContainer.layout_constraints self') w' =
        Some ([cn1] ++ [vbox (VContainer.items sample_vcontainer) (Some 4%Z)])
  | Raised _ w' =>
      (4 < 0)%Z /\
      returned_list (VContainer.layout_constraints sample_vcontainer) w' =
        Some ([cn1] ++ [vbox (VContainer.items sample_vcontainer)
                          (Some (VContainer.spacing sample_vcontainer))])
  end.
Proof.
  split; [reflexivity |].
  apply (proj1 (set_spacing_then_layout_constraints sample_world [cn1] 4%Z)
           sample_vcontainer).
  reflexivity.
Defined.
